(** * IQ-MOS: the physics helpers of [app.py]

    The program is a Streamlit page around four helper functions
    ([mosfet_iv], [dg_threshold], [cnt_bandgap], [mobility_degradation])
    and two computations written inline in the page (the CNT
    classification and the radiation shift).

    Numbers.  Every Python [float] and every [numpy.float64] of the program
    is modelled by the real number it denotes: arithmetic is the arithmetic
    of [R], without rounding and without overflow.  The two ways the
    program can divide are kept apart, because they behave differently on a
    zero divisor:
    - [/] between Python floats raises [ZeroDivisionError] ([py_truediv]);
    - [/] with a [numpy.float64] operand returns [inf], [-inf] or [nan]
      (and prints a [RuntimeWarning]), it does not raise ([np_divide]).
    Python integers are modelled by [Z]; [%] on integers is the floored
    remainder, which is [Z.modulo].

    Module [Binary64] repeats the helpers over Rocq's primitive binary64
    numbers ([np.exp] is a parameter there), so that sample points can be
    evaluated with the rounding the program has.  Rounding merges close
    results: a strict order or an exact identity between two results of
    the program is stated here only where it survives rounding, and ties
    of the rounded results are shown in [Binary64]. *)

From Stdlib Require Import Strings.String.
From Stdlib Require Import Reals Lra Lia ZArith List Bool.
From Stdlib Require Floats.PrimFloat Floats.SpecFloat Floats.FloatAxioms.
From Stdlib Require Numbers.Cyclic.Int63.Uint63.
Import ListNotations.

Set Warnings "-inexact-float".

Local Open Scope R_scope.

(** ** Outcomes of a Python call *)

Inductive exn : Type :=
| ZeroDivisionError.

Inductive outcome (A : Type) : Type :=
| Return (a : A)
| Raise (e : exn).

Arguments Return {A} a.
Arguments Raise {A} e.

Definition bind {A B : Type} (c : outcome A) (k : A -> outcome B) : outcome B :=
  match c with
  | Return a => k a
  | Raise e => Raise e
  end.

Notation "x <- c ;; k" := (bind c (fun x => k))
  (at level 61, c at next level, right associativity).

Definition returns {A : Type} (c : outcome A) : Prop :=
  exists a, c = Return a.

Definition raises {A : Type} (c : outcome A) : Prop :=
  exists e, c = Raise e.

(** ** Values of type [numpy.float64] *)

Inductive float64 : Type :=
| Finite (r : R)
| PosInf
| NegInf
| NaN.

Definition is_finite (v : float64) : bool :=
  match v with
  | Finite _ => true
  | _ => false
  end.

(** ** The two divisions *)

(** [x / y] on Python floats. *)
Definition py_truediv (x y : R) : outcome R :=
  if Req_dec_T y 0 then Raise ZeroDivisionError else Return (x / y).

(** [x / y] when an operand is a [numpy.float64]: the IEEE quotient. *)
Definition np_divide (x y : R) : float64 :=
  if Req_dec_T y 0 then
    if Req_dec_T x 0 then NaN
    else if Rlt_dec 0 x then PosInf else NegInf
  else Finite (x / y).

(** ** Helper physics functions *)

(** The page passes [tox] as a Python float (a slider value times
    [1e-9]), so [3.45e-11 / tox] is Python's division; it is the first
    statement of the body and runs before the region tests. *)
Definition mosfet_iv (Vg Vd tox mobility Vth : R) : outcome R :=
  Cox <- py_truediv 3.45e-11 tox ;;
  let k := mobility * Cox in
  if Rlt_dec Vg Vth then
    Return 0
  else if Rlt_dec Vd (Vg - Vth) then
    Return (k * ((Vg - Vth) * Vd - 0.5 * Vd ^ 2))
  else
    Return (0.5 * k * (Vg - Vth) ^ 2).

Definition dg_threshold (thickness tox : R) : R :=
  0.2 + 0.5 * exp (- thickness / 5e-9) + (tox * 1e9) * 0.01.

(** [n] and [m] are Python integers; [np.sqrt] turns their combination
    into a [numpy.float64], so [d] is one and [0.82 / d] is numpy's
    division. *)
Definition cnt_bandgap (n m : Z) : outcome (R * float64) :=
  let d := 0.0783 * sqrt (IZR (n ^ 2 + m ^ 2 + n * m)) in
  let Eg := np_divide 0.82 d in
  Return (d, Eg).

(** One element of the call [mobility_degradation(E, mu0)]; the page
    passes the array [E = np.linspace(1e4, 1e7, 200)], so the outer
    division is numpy's. *)
Definition mobility_degradation (Efield mu0 : R) : float64 :=
  np_divide mu0 (1 + (Efield / 1e6)).

Definition mobility_degradation_array (Efield : list R) (mu0 : R) : list float64 :=
  map (fun E => mobility_degradation E mu0) Efield.

(** ** Computations of the page *)

Inductive cnt_kind : Type :=
| Metallic
| Semiconducting.

(** [if abs((n - m) % 3) == 0: ... metallic ... else: ... semiconducting]. *)
Definition cnt_classification (n m : Z) : cnt_kind :=
  if (Z.abs ((n - m) mod 3) =? 0)%Z then Metallic else Semiconducting.

(** [shift = 0.001 * dose]. *)
Definition shift (dose : R) : R :=
  0.001 * dose.

(** The two points the page plots: [ax.plot([0, dose], [0, shift])]. *)
Definition shift_plot (dose : R) : list (R * R) :=
  [(0, 0); (dose, shift dose)].

(** ** The helpers over binary64

    The same expressions over the numbers the program really has, for the
    helpers whose operations are IEEE operations with a single rounding
    ([+], [*], [/], [sqrt]); [mosfet_iv] ([**] on floats) goes through the
    C library and is left out, and [dg_threshold] takes [np.exp], which is
    numpy's, as a parameter.  Python reads a decimal literal as the
    nearest binary64 number, and so does the [%float] notation. *)

Module Binary64.

Import PrimFloat.
Local Open Scope float_scope.

(** Conversion of a Python integer of magnitude below [2^63], as
    [np.sqrt] does on its argument. *)
Definition float_of_int (z : Z) : float :=
  if (z <? 0)%Z then - of_uint63 (Uint63.of_Z (- z))
  else of_uint63 (Uint63.of_Z z).

Definition cnt_bandgap (n m : Z) : float * float :=
  let d := 0.0783 * sqrt (float_of_int (n ^ 2 + m ^ 2 + n * m)) in
  let Eg := 0.82 / d in
  (d, Eg).

Definition mobility_degradation (Efield mu0 : float) : float :=
  mu0 / (1 + (Efield / 1e6)).

Definition shift (dose : float) : float :=
  0.001 * dose.

Definition dg_threshold (np_exp : float -> float) (thickness tox : float)
  : float :=
  0.2 + 0.5 * np_exp (- thickness / 5e-9) + (tox * 1e9) * 0.01.

(** Two pairs of adjacent binary64 numbers inside the slider ranges of
    mode 2: body thicknesses just above 10 nm and oxide thicknesses just
    above 1.5 nm, in metres. *)
Definition thickness_lo : float := 1.0000000000000002e-08.
Definition thickness_hi : float := 1.0000000000000004e-08.
Definition tox_lo : float := 1.5000000000000012e-09.
Definition tox_hi : float := 1.5000000000000014e-09.

End Binary64.

(** ** The page around the helpers

    The page reads its parameters from sliders, converts their units,
    calls one helper and hands the numbers to the plot or to the text.
    What is modelled is the numbers: a slider is the value it returns,
    within the bounds it was created with; a plot is the pair of
    sequences given to [ax.plot]; a text is the value it formats. *)

(** [st.slider(label, lo, hi, default)] returns a value between [lo] and
    [hi]. *)
Definition slider (lo hi v : R) : Prop :=
  lo <= v <= hi.

Definition int_slider (lo hi v : Z) : Prop :=
  (lo <= v <= hi)%Z.

(** [np.linspace(start, stop, num)], with numpy's default
    [endpoint=True]: the samples [i * step + start] with
    [step = (stop - start) / (num - 1)], the last one then overwritten by
    [stop]. *)
Definition linspace (start stop : R) (num : nat) : list R :=
  let div := (num - 1)%nat in
  let delta := stop - start in
  let y :=
    map (fun i =>
           (if (0 <? div)%nat then INR i * (delta / INR div)
            else INR i * delta) + start)
        (seq 0 num) in
  if (1 <? num)%nat then removelast y ++ [stop] else y.

(** A list comprehension [[f(a) for a in l]]: the calls are made in
    order and the first exception ends the comprehension. *)
Fixpoint comprehension {A B : Type} (f : A -> outcome B) (l : list A)
  : outcome (list B) :=
  match l with
  | [] => Return []
  | a :: l' =>
      b <- f a ;;
      bs <- comprehension f l' ;;
      Return (b :: bs)
  end.

(** The options of the select box and the branch each one runs. *)
Inductive simulation : Type :=
| MosfetIVMode
| DoubleGateMode
| CntMode
| MobilityMode
| RadiationMode.

Definition mode_options : list string :=
  ["MOSFET I-V"%string;
   "Double Gate MOS Threshold"%string;
   "CNT Bandgap Explorer"%string;
   "Mobility Degradation"%string;
   "Radiation TID Threshold Shift"%string].

(** The chain [if mode == ... elif mode == ...]; it has no [else]. *)
Definition selected_branch (mode : string) : option simulation :=
  if (mode =? "MOSFET I-V")%string then Some MosfetIVMode
  else if (mode =? "Double Gate MOS Threshold")%string then Some DoubleGateMode
  else if (mode =? "CNT Bandgap Explorer")%string then Some CntMode
  else if (mode =? "Mobility Degradation")%string then Some MobilityMode
  else if (mode =? "Radiation TID Threshold Shift")%string then Some RadiationMode
  else None.

(** Mode 1: the sweep of [mosfet_iv] over the drain voltage. *)
Definition Vd_values : list R :=
  linspace 0 1.5 200.

Definition Id_values (Vg tox mobility Vth : R) : outcome (list R) :=
  comprehension (fun Vd => mosfet_iv Vg Vd tox mobility Vth) Vd_values.

Definition mosfet_mode (Vg_slider tox_slider mobility_slider Vth_slider : R)
  : outcome (list R * list R) :=
  let Vg := Vg_slider in
  let tox := tox_slider * 1e-9 in
  let mobility := mobility_slider * 1e-4 in
  let Vth := Vth_slider in
  Ids <- Id_values Vg tox mobility Vth ;;
  Return (Vd_values, Ids).

(** Mode 2: the threshold voltage shown in the text. *)
Definition double_gate_mode (thickness_slider tox_slider : R) : R :=
  let thickness := thickness_slider * 1e-9 in
  let tox := tox_slider * 1e-9 in
  dg_threshold thickness tox.

(** Mode 3: diameter, band gap and the message chosen. *)
Definition cnt_mode (n m : Z) : outcome (R * float64 * cnt_kind) :=
  r <- cnt_bandgap n m ;;
  let '(d, Eg) := r in
  Return (d, Eg, cnt_classification n m).

(** Mode 4: the sweep of the mobility over the field. *)
Definition E_values : list R :=
  linspace 1e4 1e7 200.

Definition mobility_mode (mu0_slider : R) : list R * list float64 :=
  let mu0 := mu0_slider * 1e-4 in
  let E := E_values in
  let mu := mobility_degradation_array E mu0 in
  (E, mu).

(** ** Reading of the guard asked for at zero diameter

    A result of [cnt_bandgap] is guarded when the call raised an error or
    returned a band gap that is a number: the quotient by a zero diameter
    is the only way the function makes [inf] or [nan]. *)

Definition guards_zero_diameter (r : outcome (R * float64)) : Prop :=
  raises r \/ exists d Eg, r = Return (d, Finite Eg).

(** ** Strict monotonicity of [dg_threshold] on the numbers of the program

    The two strict orders read on binary64 results, [<] being the
    comparison of floats, for a given exponential. *)

Definition strictly_decreasing_in_thickness (np_exp : PrimFloat.float -> PrimFloat.float)
  : Prop :=
  forall tox thickness1 thickness2,
    PrimFloat.ltb thickness1 thickness2 = true ->
    PrimFloat.ltb (Binary64.dg_threshold np_exp thickness2 tox)
                  (Binary64.dg_threshold np_exp thickness1 tox) = true.

Definition strictly_increasing_in_tox (np_exp : PrimFloat.float -> PrimFloat.float)
  : Prop :=
  forall thickness tox1 tox2,
    PrimFloat.ltb tox1 tox2 = true ->
    PrimFloat.ltb (Binary64.dg_threshold np_exp thickness tox1)
                  (Binary64.dg_threshold np_exp thickness tox2) = true.

(** * Properties *)

(** ** Division *)

Lemma py_truediv_nonzero (x y : R) :
  y <> 0 -> py_truediv x y = Return (x / y).
Proof.
  intros Hy. unfold py_truediv.
  destruct (Req_dec_T y 0) as [E | _]; [contradiction | reflexivity].
Qed.

Lemma py_truediv_zero (x : R) :
  py_truediv x 0 = Raise ZeroDivisionError.
Proof.
  unfold py_truediv.
  destruct (Req_dec_T 0 0) as [_ | N]; [reflexivity | now elim N].
Qed.

Lemma py_truediv_returns_iff (x y : R) :
  returns (py_truediv x y) <-> y <> 0.
Proof.
  split.
  - intros [q Hq] ->. rewrite py_truediv_zero in Hq. discriminate.
  - intros Hy. exists (x / y). now apply py_truediv_nonzero.
Qed.

Lemma np_divide_nonzero (x y : R) :
  y <> 0 -> np_divide x y = Finite (x / y).
Proof.
  intros Hy. unfold np_divide.
  destruct (Req_dec_T y 0) as [E | _]; [contradiction | reflexivity].
Qed.

Lemma np_divide_zero_pos (x : R) :
  0 < x -> np_divide x 0 = PosInf.
Proof.
  intros Hx. unfold np_divide.
  destruct (Req_dec_T 0 0) as [_ | N]; [| now elim N].
  destruct (Req_dec_T x 0) as [E | _]; [lra |].
  destruct (Rlt_dec 0 x) as [_ | N]; [reflexivity | contradiction].
Qed.

Lemma np_divide_finite_iff (x y : R) :
  is_finite (np_divide x y) = true <-> y <> 0.
Proof.
  split.
  - intros H ->. unfold np_divide in H.
    destruct (Req_dec_T 0 0) as [_ | N]; [| now elim N].
    destruct (Req_dec_T x 0); [discriminate |].
    destruct (Rlt_dec 0 x); discriminate.
  - intros Hy. now rewrite np_divide_nonzero.
Qed.

(** ** [mosfet_iv] *)

Section MosfetIV.

Variables Vg Vd tox mobility Vth : R.

Lemma mosfet_iv_nonzero_tox :
  tox <> 0 ->
  mosfet_iv Vg Vd tox mobility Vth =
  if Rlt_dec Vg Vth then Return 0
  else if Rlt_dec Vd (Vg - Vth)
       then Return (mobility * (3.45e-11 / tox) * ((Vg - Vth) * Vd - 0.5 * Vd ^ 2))
       else Return (0.5 * (mobility * (3.45e-11 / tox)) * (Vg - Vth) ^ 2).
Proof.
  intros Htox. unfold mosfet_iv.
  rewrite (py_truediv_nonzero _ _ Htox). reflexivity.
Qed.

Lemma mosfet_iv_cutoff :
  tox <> 0 -> Vg < Vth ->
  mosfet_iv Vg Vd tox mobility Vth = Return 0.
Proof.
  intros Htox Hoff. rewrite (mosfet_iv_nonzero_tox Htox).
  destruct (Rlt_dec Vg Vth); [reflexivity | contradiction].
Qed.

Lemma mosfet_iv_triode :
  tox <> 0 -> Vg >= Vth -> Vd < Vg - Vth ->
  mosfet_iv Vg Vd tox mobility Vth =
  Return (mobility * (3.45e-11 / tox) * ((Vg - Vth) * Vd - 0.5 * Vd ^ 2)).
Proof.
  intros Htox Hon Hlin. rewrite (mosfet_iv_nonzero_tox Htox).
  destruct (Rlt_dec Vg Vth); [lra |].
  destruct (Rlt_dec Vd (Vg - Vth)); [reflexivity | contradiction].
Qed.

Lemma mosfet_iv_saturation :
  tox <> 0 -> Vg >= Vth -> Vd >= Vg - Vth ->
  mosfet_iv Vg Vd tox mobility Vth =
  Return (0.5 * (mobility * (3.45e-11 / tox)) * (Vg - Vth) ^ 2).
Proof.
  intros Htox Hon Hsat. rewrite (mosfet_iv_nonzero_tox Htox).
  destruct (Rlt_dec Vg Vth); [lra |].
  destruct (Rlt_dec Vd (Vg - Vth)); [lra | reflexivity].
Qed.

Lemma mosfet_iv_raises_at_zero_tox :
  tox = 0 -> mosfet_iv Vg Vd tox mobility Vth = Raise ZeroDivisionError.
Proof.
  intros ->. unfold mosfet_iv. now rewrite py_truediv_zero.
Qed.

End MosfetIV.

(** C1. With [tox > 0] and [k = mobility * (3.45e-11 / tox)], [mosfet_iv]
    follows the three-region policy: 0 in cutoff ([Vg < Vth]); the triode
    value [k*((Vg-Vth)*Vd - 0.5*Vd^2)] when [Vg >= Vth] and
    [Vd < Vg - Vth]; the saturation value [0.5*k*(Vg-Vth)^2] in the
    remaining case. *)
Theorem mosfet_iv_piecewise (Vg Vd tox mobility Vth : R) :
  0 < tox ->
  let k := mobility * (3.45e-11 / tox) in
  (Vg < Vth ->
   mosfet_iv Vg Vd tox mobility Vth = Return 0) /\
  (Vg >= Vth -> Vd < Vg - Vth ->
   mosfet_iv Vg Vd tox mobility Vth =
   Return (k * ((Vg - Vth) * Vd - 0.5 * Vd ^ 2))) /\
  (Vg >= Vth -> ~ Vd < Vg - Vth ->
   mosfet_iv Vg Vd tox mobility Vth =
   Return (0.5 * k * (Vg - Vth) ^ 2)).
Proof.
  intros Htox k.
  assert (Hnz : tox <> 0) by lra.
  repeat split.
  - intros Hoff. now apply mosfet_iv_cutoff.
  - intros Hon Hlin. now apply mosfet_iv_triode.
  - intros Hon Hsat. apply mosfet_iv_saturation; [assumption | assumption | lra].
Qed.

Lemma mosfet_iv_piecewise_witness :
  mosfet_iv 0.2 1 1.5e-9 0.02 0.4 = Return 0 /\
  mosfet_iv 1 0.2 1.5e-9 0.02 0.4 =
  Return (0.02 * (3.45e-11 / 1.5e-9) * ((1 - 0.4) * 0.2 - 0.5 * 0.2 ^ 2)) /\
  mosfet_iv 1 1.5 1.5e-9 0.02 0.4 =
  Return (0.5 * (0.02 * (3.45e-11 / 1.5e-9)) * (1 - 0.4) ^ 2).
Proof.
  assert (Htox : 0 < 1.5e-9) by lra.
  split; [| split].
  - apply (mosfet_iv_piecewise 0.2 1 1.5e-9 0.02 0.4 Htox). lra.
  - apply (mosfet_iv_piecewise 1 0.2 1.5e-9 0.02 0.4 Htox); lra.
  - apply (mosfet_iv_piecewise 1 1.5 1.5e-9 0.02 0.4 Htox); lra.
Defined.

(** C10. [Cox = 3.45e-11 / tox] is computed before any region test, so a
    call with [tox = 0] raises [ZeroDivisionError] whatever the other
    arguments are, cutoff inputs included; a call returns a value exactly
    when [tox <> 0]. *)
Theorem mosfet_iv_zero_tox_raises (Vg Vd mobility Vth : R) :
  mosfet_iv Vg Vd 0 mobility Vth = Raise ZeroDivisionError /\
  (Vg < Vth -> mosfet_iv Vg Vd 0 mobility Vth <> Return 0) /\
  (forall tox, returns (mosfet_iv Vg Vd tox mobility Vth) <-> tox <> 0).
Proof.
  assert (H0 : mosfet_iv Vg Vd 0 mobility Vth = Raise ZeroDivisionError)
    by now apply mosfet_iv_raises_at_zero_tox.
  split; [exact H0 | split].
  - intros _. rewrite H0. discriminate.
  - intros tox. split.
    + intros [Id HId] ->. rewrite H0 in HId. discriminate.
    + intros Hnz. rewrite (mosfet_iv_nonzero_tox _ _ _ _ _ Hnz).
      destruct (Rlt_dec Vg Vth); [| destruct (Rlt_dec Vd (Vg - Vth))];
        eexists; reflexivity.
Qed.

Lemma mosfet_iv_zero_tox_raises_witness :
  mosfet_iv 0.2 1 0 0.02 0.4 = Raise ZeroDivisionError /\
  mosfet_iv 0.2 1 0 0.02 0.4 <> Return 0 /\
  returns (mosfet_iv 0.2 1 1.5e-9 0.02 0.4).
Proof.
  destruct (mosfet_iv_zero_tox_raises 0.2 1 0.02 0.4) as [Hraise [Hcut Hret]].
  split; [exact Hraise | split].
  - apply Hcut. lra.
  - apply (Hret 1.5e-9). lra.
Defined.





(** ** [dg_threshold] *)

(** C6. [dg_threshold thickness tox] is
    [0.2 + 0.5*exp(-thickness / 5e-9) + (tox * 1e9) * 0.01], for arguments
    in metres; at the page's default sliders (10 nm, 1 nm) this is
    [0.21 + 0.5*exp(-2)]. *)
Theorem dg_threshold_formula :
  (forall thickness tox,
     dg_threshold thickness tox =
     0.2 + 0.5 * exp (- thickness / 5e-9) + (tox * 1e9) * 0.01) /\
  dg_threshold (10 * 1e-9) (1 * 1e-9) = 0.21 + 0.5 * exp (- 2).
Proof.
  split.
  - intros thickness tox. reflexivity.
  - unfold dg_threshold.
    replace (- (10 * 1e-9) / 5e-9) with (- 2) by lra. lra.
Qed.

Lemma dg_threshold_decreasing_thickness (tox t1 t2 : R) :
  t1 < t2 -> dg_threshold t2 tox < dg_threshold t1 tox.
Proof.
  intros Hlt. unfold dg_threshold.
  assert (Hexp : exp (- t2 / 5e-9) < exp (- t1 / 5e-9))
    by (apply exp_increasing; lra).
  lra.
Qed.

Lemma dg_threshold_nonincreasing_thickness (tox t1 t2 : R) :
  t1 <= t2 -> dg_threshold t2 tox <= dg_threshold t1 tox.
Proof.
  intros [Hlt | ->].
  - left. now apply dg_threshold_decreasing_thickness.
  - right. reflexivity.
Qed.

Lemma dg_threshold_nondecreasing_tox (thickness x1 x2 : R) :
  x1 <= x2 -> dg_threshold thickness x1 <= dg_threshold thickness x2.
Proof. intros Hle. unfold dg_threshold. lra. Qed.

Lemma exp_4_le_81 : exp 4 <= 81.
Proof.
  replace 4 with (1 + 1 + 1 + 1) by lra. rewrite !exp_plus.
  pose proof exp_le_3 as H3. pose proof (exp_pos 1) as H0.
  assert (H2 : exp 1 * exp 1 <= 9) by nra.
  assert (H2' : 0 < exp 1 * exp 1) by nra.
  assert (H3' : exp 1 * exp 1 * exp 1 <= 27) by nra.
  assert (H3'' : 0 < exp 1 * exp 1 * exp 1) by nra.
  nra.
Qed.

(** Two body thicknesses at most 20 nm and at least 0.01 nm apart lower
    the threshold by more than 1e-5 V. *)
Lemma dg_threshold_thickness_margin (tox t1 t2 : R) :
  0 <= t1 -> t2 <= 20e-9 -> t1 + 1e-11 <= t2 ->
  dg_threshold t1 tox - dg_threshold t2 tox > 1e-5.
Proof.
  intros H1 H2 Hsep. unfold dg_threshold.
  set (u1 := t1 / 5e-9). set (u2 := t2 / 5e-9).
  replace (- t1 / 5e-9) with (- u2 + (u2 - u1)) by (unfold u1, u2; lra).
  replace (- t2 / 5e-9) with (- u2) by (unfold u2; lra).
  rewrite exp_plus.
  assert (Hgap : 1 + 0.002 <= exp (u2 - u1)).
  { apply Rle_trans with (1 + (u2 - u1)); [unfold u1, u2; lra |].
    apply exp_ineq1_le. }
  assert (Hlow : / 81 <= exp (- u2)).
  { apply Rle_trans with (exp (Ropp 4)).
    - rewrite exp_Ropp. apply Rinv_le_contravar; [apply exp_pos | apply exp_4_le_81].
    - destruct (Req_dec_T u2 4) as [-> | Hne]; [right; reflexivity |].
      left. apply exp_increasing. unfold u2 in *. lra. }
  assert (H81 : 0.0123 < / 81) by lra.
  pose proof (exp_pos (- u2)) as Hpos.
  nra.
Qed.

(** Two oxide thicknesses at least 0.01 nm apart raise the threshold by
    more than 9e-5 V. *)
Lemma dg_threshold_tox_margin (thickness x1 x2 : R) :
  x1 + 1e-11 <= x2 ->
  dg_threshold thickness x2 - dg_threshold thickness x1 > 9e-5.
Proof. intros Hsep. unfold dg_threshold. lra. Qed.

(** No float is below itself. *)
Lemma float_ltb_irrefl (x : PrimFloat.float) :
  PrimFloat.ltb x x = false.
Proof.
  rewrite FloatAxioms.ltb_spec. unfold SpecFloat.SFltb, SpecFloat.SFcompare.
  destruct (FloatOps.Prim2SF x) as [sg | sg | | sg m e];
    try (destruct sg; reflexivity); try reflexivity.
  rewrite Z.compare_refl, Pos.compare_refl. destruct sg; reflexivity.
Qed.

Module Binary64Ties.

Import PrimFloat.
Local Open Scope float_scope.

(** The two adjacent thicknesses give the same quotient by [5e-9], hence
    the same threshold whatever [np.exp] returns. *)
Lemma dg_threshold_thickness_tie (np_exp : float -> float) (tox : float) :
  Binary64.dg_threshold np_exp Binary64.thickness_lo tox =
  Binary64.dg_threshold np_exp Binary64.thickness_hi tox.
Proof.
  unfold Binary64.dg_threshold.
  assert (E : - Binary64.thickness_lo / 5e-9 = - Binary64.thickness_hi / 5e-9)
    by (vm_compute; reflexivity).
  rewrite E. reflexivity.
Qed.

(** The two adjacent oxide thicknesses give the same product by [1e9],
    hence the same threshold. *)
Lemma dg_threshold_tox_tie (np_exp : float -> float) (thickness : float) :
  Binary64.dg_threshold np_exp thickness Binary64.tox_lo =
  Binary64.dg_threshold np_exp thickness Binary64.tox_hi.
Proof.
  unfold Binary64.dg_threshold.
  assert (E : Binary64.tox_lo * 1e9 = Binary64.tox_hi * 1e9)
    by (vm_compute; reflexivity).
  rewrite E. reflexivity.
Qed.

Lemma pairs_ordered :
  (Binary64.thickness_lo <? Binary64.thickness_hi) = true /\
  (Binary64.tox_lo <? Binary64.tox_hi) = true.
Proof. split; vm_compute; reflexivity. Qed.

End Binary64Ties.

(** C7 as stated fails on the numbers of the program: whatever function
    [np.exp] is, the thicknesses 1.0000000000000002e-08 <
    1.0000000000000004e-08 give the same threshold at every oxide
    thickness, and the oxide thicknesses 1.5000000000000012e-09 <
    1.5000000000000014e-09 give the same threshold at every body
    thickness. *)
Lemma dg_threshold_not_strictly_monotone :
  ~ (exists np_exp, strictly_decreasing_in_thickness np_exp) /\
  ~ (exists np_exp, strictly_increasing_in_tox np_exp).
Proof.
  destruct Binary64Ties.pairs_ordered as [Hthick Htox].
  split.
  - intros [np_exp Hstrict].
    specialize (Hstrict Binary64.tox_lo Binary64.thickness_lo Binary64.thickness_hi Hthick).
    rewrite (Binary64Ties.dg_threshold_thickness_tie np_exp), float_ltb_irrefl in Hstrict.
    discriminate.
  - intros [np_exp Hstrict].
    specialize (Hstrict Binary64.thickness_lo Binary64.tox_lo Binary64.tox_hi Htox).
    rewrite (Binary64Ties.dg_threshold_tox_tie np_exp), float_ltb_irrefl in Hstrict.
    discriminate.
Qed.

(** C7, amended. [dg_threshold] never increases when the thickness grows
    at fixed [tox] and never decreases when [tox] grows at fixed
    thickness, but not strictly: after rounding, adjacent inputs return
    the same threshold.  The order is strict between inputs of the slider
    ranges at least 0.01 nm apart: the threshold then falls by more than
    1e-5 V in the thickness and rises by more than 9e-5 V in [tox]. *)
Theorem dg_threshold_weakly_monotone :
  (forall tox thickness1 thickness2,
     thickness1 <= thickness2 ->
     dg_threshold thickness1 tox >= dg_threshold thickness2 tox) /\
  (forall thickness tox1 tox2,
     tox1 <= tox2 ->
     dg_threshold thickness tox1 <= dg_threshold thickness tox2) /\
  (forall tox thickness1 thickness2,
     0 <= tox <= 5e-9 ->
     0 <= thickness1 -> thickness2 <= 20e-9 ->
     thickness1 + 1e-11 <= thickness2 ->
     dg_threshold thickness1 tox - dg_threshold thickness2 tox > 1e-5) /\
  (forall thickness tox1 tox2,
     0 <= thickness <= 20e-9 ->
     0 <= tox1 -> tox2 <= 5e-9 ->
     tox1 + 1e-11 <= tox2 ->
     dg_threshold thickness tox2 - dg_threshold thickness tox1 > 9e-5) /\
  (forall np_exp tox,
     Binary64.dg_threshold np_exp Binary64.thickness_lo tox =
     Binary64.dg_threshold np_exp Binary64.thickness_hi tox) /\
  (forall np_exp thickness,
     Binary64.dg_threshold np_exp thickness Binary64.tox_lo =
     Binary64.dg_threshold np_exp thickness Binary64.tox_hi).
Proof.
  split; [| split; [| split; [| split; [| split]]]].
  - intros tox t1 t2 Hle. apply Rle_ge.
    now apply dg_threshold_nonincreasing_thickness.
  - intros thickness x1 x2 Hle.
    now apply dg_threshold_nondecreasing_tox.
  - intros tox t1 t2 _ H1 H2 Hsep.
    now apply dg_threshold_thickness_margin.
  - intros thickness x1 x2 _ _ _ Hsep.
    now apply dg_threshold_tox_margin.
  - exact Binary64Ties.dg_threshold_thickness_tie.
  - exact Binary64Ties.dg_threshold_tox_tie.
Qed.

Lemma dg_threshold_weakly_monotone_witness :
  dg_threshold 2e-9 1e-9 >= dg_threshold 20e-9 1e-9 /\
  dg_threshold 10e-9 0.5e-9 <= dg_threshold 10e-9 5e-9 /\
  dg_threshold 10e-9 1e-9 - dg_threshold 10.01e-9 1e-9 > 1e-5 /\
  dg_threshold 10e-9 1e-9 - dg_threshold 10e-9 0.99e-9 > 9e-5.
Proof.
  destruct dg_threshold_weakly_monotone as [Hthick [Htox [Hmt [Hmx _]]]].
  split; [| split; [| split]].
  - apply (Hthick 1e-9 2e-9 20e-9). lra.
  - apply (Htox 10e-9 0.5e-9 5e-9). lra.
  - apply (Hmt 1e-9 10e-9 10.01e-9); lra.
  - apply (Hmx 10e-9 0.99e-9 1e-9); lra.
Defined.

(** ** [cnt_bandgap] *)

Lemma chirality_form_pos (n m : Z) :
  (n <> 0 \/ m <> 0)%Z -> (0 < n ^ 2 + m ^ 2 + n * m)%Z.
Proof. intros H. nia. Qed.

Lemma chirality_form_IZR (n m : Z) :
  IZR (n ^ 2 + m ^ 2 + n * m) = IZR n ^ 2 + IZR m ^ 2 + IZR n * IZR m.
Proof.
  rewrite !plus_IZR, mult_IZR.
  replace (n ^ 2)%Z with (n * n)%Z by ring.
  replace (m ^ 2)%Z with (m * m)%Z by ring.
  rewrite !mult_IZR. ring.
Qed.

Lemma cnt_diameter_pos (n m : Z) :
  (n <> 0 \/ m <> 0)%Z ->
  0 < 0.0783 * sqrt (IZR (n ^ 2 + m ^ 2 + n * m)).
Proof.
  intros H. apply Rmult_lt_0_compat; [lra |].
  apply sqrt_lt_R0. apply (IZR_lt 0). now apply chirality_form_pos.
Qed.

Lemma cnt_bandgap_nonzero (n m : Z) :
  (n <> 0 \/ m <> 0)%Z ->
  let d := 0.0783 * sqrt (IZR (n ^ 2 + m ^ 2 + n * m)) in
  0 < d /\ cnt_bandgap n m = Return (d, Finite (0.82 / d)).
Proof.
  intros H d.
  assert (Hd : 0 < d) by now apply cnt_diameter_pos.
  split; [assumption |].
  unfold cnt_bandgap. fold d.
  rewrite np_divide_nonzero by lra. reflexivity.
Qed.

Lemma cnt_bandgap_origin :
  cnt_bandgap 0 0 = Return (0, PosInf).
Proof.
  unfold cnt_bandgap. simpl (0 ^ 2 + 0 ^ 2 + 0 * 0)%Z.
  rewrite sqrt_0, Rmult_0_r.
  rewrite np_divide_zero_pos by lra. reflexivity.
Qed.

Lemma sqrt_300_bounds :
  17.3205 < sqrt 300 < 17.3206.
Proof.
  assert (Hsq : sqrt 300 * sqrt 300 = 300) by (apply sqrt_sqrt; lra).
  pose proof (sqrt_pos 300) as Hpos.
  split; nra.
Qed.

(** C3 as stated fails: on [n = m = 0] the call neither raises nor returns
    a band gap that is a number. *)
Lemma cnt_bandgap_zero_unguarded :
  ~ guards_zero_diameter (cnt_bandgap 0 0).
Proof.
  rewrite cnt_bandgap_origin.
  intros [[e He] | [d [Eg HEg]]]; discriminate.
Qed.

(** C3, amended. [cnt_bandgap] has no guard: on [n = m = 0] the diameter
    is 0 and [0.82 / d] is evaluated by numpy's division, whose result is
    [+inf]; no error is raised.  [(0, 0)] is the only input of zero
    diameter: everywhere else [d > 0] and the band gap is the number
    [0.82 / d]. *)
Theorem cnt_bandgap_zero_diameter :
  cnt_bandgap 0 0 = Return (0, PosInf) /\
  (forall n m, (n <> 0 \/ m <> 0)%Z ->
     exists d, 0 < d /\ cnt_bandgap n m = Return (d, Finite (0.82 / d))).
Proof.
  split.
  - exact cnt_bandgap_origin.
  - intros n m H. eexists. now apply cnt_bandgap_nonzero.
Qed.

Lemma cnt_bandgap_zero_diameter_witness :
  exists d, 0 < d /\ cnt_bandgap 10 0 = Return (d, Finite (0.82 / d)).
Proof.
  apply (proj2 cnt_bandgap_zero_diameter 10%Z 0%Z).
  left. discriminate.
Defined.

(** C5. For positive [n] and [m], [cnt_bandgap n m] returns the diameter
    [d = 0.0783 * sqrt (n^2 + m^2 + n*m)] and the band gap [0.82 / d];
    [cnt_bandgap 10 10] is within half a thousandth of 1.356 nm and
    0.605 eV. *)
Theorem cnt_bandgap_formula :
  (forall n m, (0 < n)%Z -> (0 < m)%Z ->
     let d := 0.0783 * sqrt (IZR n ^ 2 + IZR m ^ 2 + IZR n * IZR m) in
     cnt_bandgap n m = Return (d, Finite (0.82 / d))) /\
  (exists d Eg,
     cnt_bandgap 10 10 = Return (d, Finite Eg) /\
     Rabs (d - 1.356) < 0.0005 /\ Rabs (Eg - 0.605) < 0.0005).
Proof.
  split.
  - intros n m Hn Hm d. unfold d.
    rewrite <- chirality_form_IZR.
    apply cnt_bandgap_nonzero. left. lia.
  - destruct (cnt_bandgap_nonzero 10 10) as [Hd Heq]; [left; discriminate |].
    simpl (10 ^ 2 + 10 ^ 2 + 10 * 10)%Z in Hd, Heq.
    pose proof sqrt_300_bounds as [Hlo Hhi].
    set (d := 0.0783 * sqrt 300) in *.
    exists d, (0.82 / d). split; [exact Heq |].
    assert (Hdlo : 1.35619 < d) by (unfold d; lra).
    assert (Hdhi : d < 1.35621) by (unfold d; lra).
    split.
    + apply Rabs_def1; lra.
    + assert (Hq1 : 0.6046 < 0.82 / d).
      { apply Rmult_lt_reg_r with d; [lra |].
        replace (0.82 / d * d) with 0.82 by (field; lra). lra. }
      assert (Hq2 : 0.82 / d < 0.6047).
      { apply Rmult_lt_reg_r with d; [lra |].
        replace (0.82 / d * d) with 0.82 by (field; lra). lra. }
      apply Rabs_def1; lra.
Qed.

Lemma cnt_bandgap_formula_witness :
  cnt_bandgap 3 5 =
  Return (0.0783 * sqrt (IZR 3 ^ 2 + IZR 5 ^ 2 + IZR 3 * IZR 5),
          Finite (0.82 / (0.0783 * sqrt (IZR 3 ^ 2 + IZR 5 ^ 2 + IZR 3 * IZR 5)))).
Proof.
  apply (proj1 cnt_bandgap_formula 3%Z 5%Z); reflexivity.
Defined.

(** ** CNT classification *)

Lemma floored_remainder_range (a : Z) :
  (0 <= a mod 3 < 3)%Z.
Proof. apply Z.mod_pos_bound. lia. Qed.

Lemma cnt_classification_metallic_iff (n m : Z) :
  cnt_classification n m = Metallic <-> ((n - m) mod 3 = 0)%Z.
Proof.
  unfold cnt_classification.
  pose proof (floored_remainder_range (n - m)) as Hr.
  destruct (Z.eqb_spec (Z.abs ((n - m) mod 3)) 0) as [E | N].
  - split; [intros _; lia | reflexivity].
  - split; [discriminate | intros E; lia].
Qed.

(** C4. For all integers [n] and [m], negative differences included, the
    page reports metallic exactly when [(n - m) mod 3 = 0], the remainder
    being the non-negative one (so that [abs] leaves it unchanged), and
    semiconducting otherwise; whenever 3 divides a negative [n - m] the
    report is metallic. *)
Theorem cnt_classification_mod3 (n m : Z) :
  (0 <= (n - m) mod 3 < 3)%Z /\
  Z.abs ((n - m) mod 3) = ((n - m) mod 3)%Z /\
  (cnt_classification n m = Metallic <-> ((n - m) mod 3 = 0)%Z) /\
  (cnt_classification n m = Semiconducting <-> ((n - m) mod 3 <> 0)%Z) /\
  (cnt_classification n m = Metallic <-> (3 | n - m)%Z) /\
  ((n - m < 0)%Z -> (3 | n - m)%Z -> cnt_classification n m = Metallic).
Proof.
  pose proof (floored_remainder_range (n - m)) as Hr.
  pose proof (cnt_classification_metallic_iff n m) as Hm.
  assert (Hdiv : ((n - m) mod 3 = 0 <-> (3 | n - m))%Z)
    by (apply Z.mod_divide; lia).
  split; [exact Hr |].
  split; [lia |].
  split; [exact Hm |].
  split; [| split].
  - split.
    + intros Hs E. apply Hm in E. rewrite E in Hs. discriminate.
    + intros N. destruct (cnt_classification n m); [| reflexivity].
      elim N. now apply Hm.
  - split; intros H.
    + apply Hdiv, Hm, H.
    + apply Hm, Hdiv, H.
  - intros _ H. apply Hm, Hdiv, H.
Qed.

Lemma cnt_classification_mod3_witness :
  cnt_classification 1 4 = Metallic.
Proof.
  destruct (cnt_classification_mod3 1 4) as [_ [_ [_ [_ [_ Hneg]]]]].
  apply Hneg.
  - reflexivity.
  - exists (-1)%Z. reflexivity.
Defined.

(** ** [mobility_degradation] *)

Lemma mobility_denominator_zero_iff (Efield : R) :
  1 + Efield / 1e6 = 0 <-> Efield = - 1e6.
Proof. split; intros H; lra. Qed.

(** C8. For every [Efield] and [mu0], [mobility_degradation Efield mu0] is
    the quotient [mu0 / (1 + Efield / 1e6)]: the real quotient wherever
    the denominator is not zero, and at the one field [-1e6] where it is,
    the value numpy gives to a division by zero, which is not a number.
    At [Efield = 0] the result is [mu0], at [Efield = 1e6] it is
    [mu0 / 2]. *)
Theorem mobility_degradation_formula :
  (forall Efield mu0,
     mobility_degradation Efield mu0 = np_divide mu0 (1 + Efield / 1e6)) /\
  (forall Efield mu0,
     (Efield <> - 1e6 /\
      mobility_degradation Efield mu0 = Finite (mu0 / (1 + Efield / 1e6))) \/
     (Efield = - 1e6 /\
      is_finite (mobility_degradation Efield mu0) = false)) /\
  (forall mu0, mobility_degradation 0 mu0 = Finite mu0) /\
  (forall mu0, mobility_degradation 1e6 mu0 = Finite (mu0 / 2)).
Proof.
  split; [reflexivity | split; [| split]].
  - intros Efield mu0. unfold mobility_degradation.
    destruct (Req_dec_T (1 + Efield / 1e6) 0) as [E | N].
    + right. split; [now apply mobility_denominator_zero_iff |].
      apply not_true_is_false. intros Hfin.
      now apply np_divide_finite_iff in Hfin.
    + left. split.
      * intros E. now apply mobility_denominator_zero_iff in E.
      * now apply np_divide_nonzero.
  - intros mu0. unfold mobility_degradation.
    rewrite np_divide_nonzero by lra. f_equal. field.
  - intros mu0. unfold mobility_degradation.
    rewrite np_divide_nonzero by lra. f_equal. lra.
Qed.

Lemma mobility_degradation_array_nth (Efield : list R) (mu0 : R) (i : nat) :
  nth_error (mobility_degradation_array Efield mu0) i =
  option_map (fun E => mobility_degradation E mu0) (nth_error Efield i).
Proof. unfold mobility_degradation_array. apply nth_error_map. Qed.

(** ** Radiation shift *)

(** C9. The shift is [0.001 * dose] and nothing else: it is linear in the
    dose and vanishes at 0; for [dose = 50] it is exactly 0.05. *)
Theorem shift_linear :
  (forall dose, shift dose = 0.001 * dose) /\
  shift 0 = 0 /\
  (forall a b, shift (a + b) = shift a + shift b) /\
  (forall c dose, shift (c * dose) = c * shift dose) /\
  shift 50 = 0.05 /\
  shift_plot 50 = [(0, 0); (50, 0.05)].
Proof.
  unfold shift_plot, shift.
  split; [reflexivity |].
  split; [lra |].
  split; [intros; lra |].
  split; [intros; lra |].
  split; [lra |].
  repeat f_equal. lra.
Qed.

(** ** Sample points in binary64

    The values the program computes, with its rounding, at the sample
    points of the specification. *)

Module Binary64Samples.

Import PrimFloat.
Local Open Scope float_scope.

Example cnt_bandgap_10_10 :
  Binary64.cnt_bandgap 10 10 = (1.356195782326431, 0.60463246581799879).
Proof. vm_compute. reflexivity. Qed.

Example cnt_bandgap_10_0 :
  Binary64.cnt_bandgap 10 0 = (0.78299999999999992, 1.0472541507024267).
Proof. vm_compute. reflexivity. Qed.

Example cnt_bandgap_0_0 :
  Binary64.cnt_bandgap 0 0 = (0, infinity).
Proof. vm_compute. reflexivity. Qed.

Example mobility_degradation_low_field :
  Binary64.mobility_degradation 0 0.03 = 0.03.
Proof. vm_compute. reflexivity. Qed.

Example mobility_degradation_half :
  Binary64.mobility_degradation 1e6 0.03 = 0.015.
Proof. vm_compute. reflexivity. Qed.

Example mobility_degradation_pole :
  Binary64.mobility_degradation (-1e6) 0.03 = infinity.
Proof. vm_compute. reflexivity. Qed.

Example shift_50 :
  Binary64.shift 50 = 0.05.
Proof. vm_compute. reflexivity. Qed.

End Binary64Samples.

(** * Further properties of the helpers and of the page *)

(** ** [mosfet_iv]: sign of the current and missing validation *)

Lemma oxide_capacitance_pos (tox : R) :
  0 < tox -> 0 < 3.45e-11 / tox.
Proof. intros H. apply Rdiv_lt_0_compat; lra. Qed.

Lemma gain_nonneg (tox mobility : R) :
  0 < tox -> 0 <= mobility -> 0 <= mobility * (3.45e-11 / tox).
Proof.
  intros Ht Hm. apply Rmult_le_pos; [assumption |].
  left. now apply oxide_capacitance_pos.
Qed.

(** The value of a call with [tox <> 0], region by region. *)
Lemma mosfet_iv_value (Vg Vd tox mobility Vth : R) :
  tox <> 0 ->
  exists Id,
    mosfet_iv Vg Vd tox mobility Vth = Return Id /\
    ((Vg < Vth /\ Id = 0) \/
     (Vg >= Vth /\ Vd < Vg - Vth /\
      Id = mobility * (3.45e-11 / tox) * ((Vg - Vth) * Vd - 0.5 * Vd ^ 2)) \/
     (Vg >= Vth /\ Vd >= Vg - Vth /\
      Id = 0.5 * (mobility * (3.45e-11 / tox)) * (Vg - Vth) ^ 2)).
Proof.
  intros Hnz.
  destruct (Rlt_dec Vg Vth) as [Hoff | Hon].
  - exists 0. split; [now apply mosfet_iv_cutoff | left; split; [assumption | reflexivity]].
  - apply Rnot_lt_ge in Hon.
    destruct (Rlt_dec Vd (Vg - Vth)) as [Hlin | Hsat].
    + eexists. split; [now apply mosfet_iv_triode |].
      right; left. repeat split; assumption.
    + apply Rnot_lt_ge in Hsat.
      eexists. split; [now apply mosfet_iv_saturation |].
      right; right. repeat split; assumption.
Qed.

Lemma mosfet_iv_returned_nonneg (Vg Vd tox mobility Vth Id : R) :
  0 < tox -> 0 <= mobility -> 0 <= Vd ->
  mosfet_iv Vg Vd tox mobility Vth = Return Id -> 0 <= Id.
Proof.
  intros Htox Hmob HVd HId.
  pose proof (gain_nonneg tox mobility Htox Hmob) as Hk.
  destruct (mosfet_iv_value Vg Vd tox mobility Vth) as [Id' [HId' Hcase]]; [lra |].
  rewrite HId in HId'. injection HId' as <-.
  set (k := mobility * (3.45e-11 / tox)) in *.
  destruct Hcase as [[_ ->] | [[Hon [Hlin ->]] | [Hon [Hsat ->]]]].
  - lra.
  - apply Rmult_le_pos; [assumption | nra].
  - apply Rmult_le_pos; [lra | apply pow2_ge_0].
Qed.

Lemma mosfet_iv_returned_le_saturation (Vg Vd tox mobility Vth Id : R) :
  0 < tox -> 0 <= mobility ->
  mosfet_iv Vg Vd tox mobility Vth = Return Id ->
  Id <= 0.5 * (mobility * (3.45e-11 / tox)) * (Vg - Vth) ^ 2.
Proof.
  intros Htox Hmob HId.
  pose proof (gain_nonneg tox mobility Htox Hmob) as Hk.
  destruct (mosfet_iv_value Vg Vd tox mobility Vth) as [Id' [HId' Hcase]]; [lra |].
  rewrite HId in HId'. injection HId' as <-.
  set (k := mobility * (3.45e-11 / tox)) in *.
  set (a := Vg - Vth) in *.
  pose proof (pow2_ge_0 a) as Ha.
  destruct Hcase as [[_ ->] | [[Hon [Hlin ->]] | [Hon [Hsat ->]]]].
  - nra.
  - assert (Hd : 0 <= 0.5 * a ^ 2 - (a * Vd - 0.5 * Vd ^ 2)) by nra.
    nra.
  - lra.
Qed.

(** X1. With a positive oxide thickness, a non-negative mobility and a
    non-negative drain voltage, the current returned is never negative. *)
Theorem mosfet_iv_nonnegative (Vg Vd tox mobility Vth : R) :
  0 < tox -> 0 <= mobility -> 0 <= Vd ->
  exists Id, mosfet_iv Vg Vd tox mobility Vth = Return Id /\ 0 <= Id.
Proof.
  intros Htox Hmob HVd.
  destruct (mosfet_iv_value Vg Vd tox mobility Vth) as [Id [HId _]]; [lra |].
  exists Id. split; [exact HId |].
  now apply (mosfet_iv_returned_nonneg Vg Vd tox mobility Vth).
Qed.

Lemma mosfet_iv_nonnegative_witness :
  exists Id, mosfet_iv 1 0.2 1.5e-9 0.02 0.4 = Return Id /\ 0 <= Id.
Proof.
  apply (mosfet_iv_nonnegative 1 0.2 1.5e-9 0.02 0.4); lra.
Defined.

(** X4. A negative drain voltage is not clamped: on a device that is on
    ([Vg >= Vth], positive mobility and oxide thickness) the current
    returned is strictly negative. *)
Theorem mosfet_iv_negative_drain (Vg Vd tox mobility Vth : R) :
  0 < tox -> 0 < mobility -> Vg >= Vth -> Vd < 0 ->
  exists Id, mosfet_iv Vg Vd tox mobility Vth = Return Id /\ Id < 0.
Proof.
  intros Htox Hmob Hon HVd.
  pose proof (oxide_capacitance_pos tox Htox) as HCox.
  assert (Hk : 0 < mobility * (3.45e-11 / tox))
    by now apply Rmult_lt_0_compat.
  eexists. split.
  - apply mosfet_iv_triode; [lra | assumption | lra].
  - set (k := mobility * (3.45e-11 / tox)) in *.
    assert (Hin : (Vg - Vth) * Vd - 0.5 * Vd ^ 2 < 0) by nra.
    nra.
Qed.

Lemma mosfet_iv_negative_drain_witness :
  exists Id, mosfet_iv 1 (-0.5) 1.5e-9 0.02 0.4 = Return Id /\ Id < 0.
Proof.
  apply (mosfet_iv_negative_drain 1 (-0.5) 1.5e-9 0.02 0.4); lra.
Defined.

(** X7. Only [tox = 0] is refused: a negative oxide thickness is accepted
    and turns the saturation current of a device that is on into a
    negative number. *)
Theorem mosfet_iv_negative_tox (Vg Vd tox mobility Vth : R) :
  tox < 0 -> 0 < mobility -> Vg > Vth -> Vd >= Vg - Vth ->
  exists Id, mosfet_iv Vg Vd tox mobility Vth = Return Id /\ Id < 0.
Proof.
  intros Htox Hmob Hon Hsat.
  eexists. split.
  - apply mosfet_iv_saturation; [lra | lra | assumption].
  - assert (HCox : 3.45e-11 / tox < 0).
    { apply Ropp_lt_cancel. rewrite Ropp_0, <- Rdiv_opp_r.
      apply Rdiv_lt_0_compat; lra. }
    assert (Hk : mobility * (3.45e-11 / tox) < 0) by nra.
    assert (Hsq : 0 < (Vg - Vth) ^ 2) by nra.
    nra.
Qed.

Lemma mosfet_iv_negative_tox_witness :
  exists Id, mosfet_iv 1 1.5 (-1.5e-9) 0.02 0.4 = Return Id /\ Id < 0.
Proof.
  apply (mosfet_iv_negative_tox 1 1.5 (-1.5e-9) 0.02 0.4); lra.
Defined.

(** ** The sweeps of the page *)

Lemma linspace_length (start stop : R) (num : nat) :
  length (linspace start stop num) = num.
Proof.
  unfold linspace.
  destruct (Nat.ltb_spec 1 num) as [Hn | Hn].
  - destruct num as [| k]; [lia |].
    rewrite seq_S, map_app. cbn [map]. rewrite removelast_last.
    rewrite length_app, length_map, length_seq. cbn. lia.
  - now rewrite length_map, length_seq.
Qed.

Lemma nth_error_seq0 (n i : nat) :
  (i < n)%nat -> nth_error (seq 0 n) i = Some i.
Proof.
  intros Hi.
  rewrite (nth_error_nth' (seq 0 n) 0%nat) by now rewrite length_seq.
  now rewrite seq_nth.
Qed.

(** From two samples on, the overwritten last sample is the affine one. *)
Lemma linspace_affine (start stop : R) (num : nat) :
  (2 <= num)%nat ->
  linspace start stop num =
  map (fun i => start + INR i * ((stop - start) / INR (num - 1))) (seq 0 num).
Proof.
  intros Hn. unfold linspace.
  destruct (Nat.ltb_spec 1 num) as [_ | Hc]; [| lia].
  destruct (Nat.ltb_spec 0 (num - 1)) as [_ | Hc]; [| lia].
  destruct num as [| k]; [lia |].
  replace (S k - 1)%nat with k by lia.
  rewrite seq_S, !map_app. cbn [map]. rewrite removelast_last.
  f_equal.
  - apply map_ext. intros i. lra.
  - f_equal. cbn [Nat.add].
    assert (Hk : INR k <> 0) by (apply not_0_INR; lia).
    field. exact Hk.
Qed.

Lemma linspace_nth (start stop : R) (num i : nat) :
  (2 <= num)%nat -> (i < num)%nat ->
  nth_error (linspace start stop num) i =
  Some (start + INR i * ((stop - start) / INR (num - 1))).
Proof.
  intros Hn Hi. rewrite linspace_affine by assumption.
  rewrite nth_error_map, nth_error_seq0 by assumption. reflexivity.
Qed.

Lemma linspace_index (start stop : R) (num i : nat) (x : R) :
  nth_error (linspace start stop num) i = Some x -> (i < num)%nat.
Proof.
  intros Hx. rewrite <- (linspace_length start stop num).
  apply nth_error_Some. rewrite Hx. discriminate.
Qed.

Lemma linspace_increasing (start stop : R) (num i j : nat) (x y : R) :
  (2 <= num)%nat -> start < stop -> (i < j)%nat ->
  nth_error (linspace start stop num) i = Some x ->
  nth_error (linspace start stop num) j = Some y ->
  x < y.
Proof.
  intros Hn Hlt Hij Hx Hy.
  pose proof (linspace_index _ _ _ _ _ Hy) as Hj.
  rewrite linspace_nth in Hx, Hy by lia.
  injection Hx as <-. injection Hy as <-.
  assert (Hstep : 0 < (stop - start) / INR (num - 1)).
  { apply Rdiv_lt_0_compat; [lra | apply lt_0_INR; lia]. }
  assert (Hinr : INR i < INR j) by (apply lt_INR; lia).
  nra.
Qed.

Lemma linspace_within (start stop : R) (num : nat) (x : R) :
  (2 <= num)%nat -> start <= stop ->
  In x (linspace start stop num) -> start <= x <= stop.
Proof.
  intros Hn Hle Hin. rewrite linspace_affine in Hin by assumption.
  apply in_map_iff in Hin. destruct Hin as [i [<- Hi]].
  apply in_seq in Hi.
  set (step := (stop - start) / INR (num - 1)).
  assert (Hpos : 0 < INR (num - 1)) by (apply lt_0_INR; lia).
  assert (Hstep : 0 <= step).
  { apply Rmult_le_pos; [lra | left; now apply Rinv_0_lt_compat]. }
  assert (Hfull : INR (num - 1) * step = stop - start)
    by (unfold step; field; lra).
  assert (H0 : 0 <= INR i) by apply pos_INR.
  assert (Hi' : INR i <= INR (num - 1)) by (apply le_INR; lia).
  split; nra.
Qed.

Lemma INR_199 : INR 199 = 199.
Proof. rewrite INR_IZR_INZ. reflexivity. Qed.

(** X8. Both sweeps of the page have 200 samples, evenly spaced from the
    first bound to the last bound included and strictly increasing:
    [Vd_values] runs from 0 to 1.5, [E_values] from 1e4 to 1e7. *)
Theorem sweep_grids :
  length Vd_values = 200%nat /\
  length E_values = 200%nat /\
  (forall i, (i < 200)%nat ->
     nth_error Vd_values i = Some (INR i * 1.5 / 199) /\
     nth_error E_values i = Some (1e4 + INR i * (1e7 - 1e4) / 199)) /\
  nth_error Vd_values 0 = Some 0 /\
  nth_error Vd_values 199 = Some 1.5 /\
  nth_error E_values 0 = Some 1e4 /\
  nth_error E_values 199 = Some 1e7 /\
  (forall i j x y, (i < j)%nat ->
     nth_error Vd_values i = Some x -> nth_error Vd_values j = Some y ->
     x < y) /\
  (forall i j x y, (i < j)%nat ->
     nth_error E_values i = Some x -> nth_error E_values j = Some y ->
     x < y).
Proof.
  unfold Vd_values, E_values.
  assert (Hnth : forall i, (i < 200)%nat ->
     nth_error (linspace 0 1.5 200) i = Some (INR i * 1.5 / 199) /\
     nth_error (linspace 1e4 1e7 200) i = Some (1e4 + INR i * (1e7 - 1e4) / 199)).
  { intros i Hi. rewrite !linspace_nth by lia.
    replace (200 - 1)%nat with 199%nat by reflexivity. rewrite INR_199.
    split; f_equal; lra. }
  split; [apply linspace_length |].
  split; [apply linspace_length |].
  split; [exact Hnth |].
  split; [destruct (Hnth 0%nat) as [-> _]; [lia | f_equal; cbn [INR]; lra] |].
  split; [destruct (Hnth 199%nat) as [-> _]; [lia | f_equal; rewrite INR_199; lra] |].
  split; [destruct (Hnth 0%nat) as [_ ->]; [lia | f_equal; cbn [INR]; lra] |].
  split; [destruct (Hnth 199%nat) as [_ ->]; [lia | f_equal; rewrite INR_199; lra] |].
  split.
  - intros i j x y Hij. apply linspace_increasing; [lia | lra | assumption].
  - intros i j x y Hij. apply linspace_increasing; [lia | lra | assumption].
Qed.

Lemma sweep_grids_witness :
  nth_error Vd_values 1 = Some (INR 1 * 1.5 / 199) /\
  nth_error E_values 1 = Some (1e4 + INR 1 * (1e7 - 1e4) / 199).
Proof.
  destruct sweep_grids as [_ [_ [Hnth _]]].
  apply (Hnth 1%nat). lia.
Defined.

(** *** List comprehensions *)

Lemma comprehension_raises_first {A B : Type}
  (f : A -> outcome B) (a : A) (l : list A) (e : exn) :
  f a = Raise e -> comprehension f (a :: l) = Raise e.
Proof. intros H. cbn [comprehension]. now rewrite H. Qed.

Lemma comprehension_returns {A B : Type} (f : A -> outcome B) (l : list A) :
  (forall a, In a l -> returns (f a)) ->
  exists bs,
    comprehension f l = Return bs /\
    Forall2 (fun a b => f a = Return b) l bs.
Proof.
  induction l as [| a l IH]; intros Hall.
  - exists []. split; [reflexivity | constructor].
  - destruct (Hall a (or_introl eq_refl)) as [b Hb].
    destruct IH as [bs [Hbs HF]].
    { intros a' Ha'. apply Hall. now right. }
    exists (b :: bs). split.
    + cbn [comprehension]. rewrite Hb. cbn [bind]. rewrite Hbs. reflexivity.
    + now constructor.
Qed.

Lemma Forall2_Forall_right {A B : Type} (P : A -> B -> Prop) (Q : B -> Prop)
  (l : list A) (l' : list B) :
  Forall2 P l l' ->
  (forall a b, In a l -> P a b -> Q b) ->
  Forall Q l'.
Proof.
  intros HF. induction HF as [| x y l l' Hxy HF IH]; intros HQ.
  - constructor.
  - constructor.
    + apply (HQ x); [now left | exact Hxy].
    + apply IH. intros a b Ha. apply HQ. now right.
Qed.

(** The comprehension of mode 1 when the oxide thickness is not zero. *)
Lemma Id_values_returns (Vg tox mobility Vth : R) :
  tox <> 0 ->
  exists Ids,
    Id_values Vg tox mobility Vth = Return Ids /\
    length Ids = 200%nat /\
    Forall2 (fun Vd Id => mosfet_iv Vg Vd tox mobility Vth = Return Id)
            Vd_values Ids.
Proof.
  intros Hnz.
  destruct (comprehension_returns
              (fun Vd => mosfet_iv Vg Vd tox mobility Vth) Vd_values)
    as [Ids [HIds HF]].
  { intros Vd _.
    destruct (mosfet_iv_value Vg Vd tox mobility Vth Hnz) as [Id [HId _]].
    now exists Id. }
  exists Ids. split; [exact HIds | split; [| exact HF]].
  rewrite <- (Forall2_length HF). apply linspace_length.
Qed.

Lemma Id_values_raises (Vg mobility Vth : R) :
  Id_values Vg 0 mobility Vth = Raise ZeroDivisionError.
Proof.
  unfold Id_values.
  destruct Vd_values as [| Vd rest] eqn:E.
  - apply (f_equal (@length R)) in E.
    unfold Vd_values in E. rewrite linspace_length in E. discriminate.
  - apply comprehension_raises_first.
    now apply mosfet_iv_raises_at_zero_tox.
Qed.

(** X9. Mode 1 raises [ZeroDivisionError] exactly when the oxide slider
    is at 0; for every other setting it plots the 200 drain voltages
    against 200 currents, each the value of [mosfet_iv] at its drain
    voltage with the sliders converted to metres and to m^2/(V s). *)
Theorem mosfet_mode_outcome (Vg_slider tox_slider mobility_slider Vth_slider : R) :
  (mosfet_mode Vg_slider tox_slider mobility_slider Vth_slider =
   Raise ZeroDivisionError <-> tox_slider = 0) /\
  (tox_slider <> 0 ->
   exists Ids,
     mosfet_mode Vg_slider tox_slider mobility_slider Vth_slider =
     Return (Vd_values, Ids) /\
     length Ids = 200%nat /\
     Forall2 (fun Vd Id =>
                mosfet_iv Vg_slider Vd (tox_slider * 1e-9)
                          (mobility_slider * 1e-4) Vth_slider = Return Id)
             Vd_values Ids).
Proof.
  assert (Hok : tox_slider <> 0 ->
   exists Ids,
     mosfet_mode Vg_slider tox_slider mobility_slider Vth_slider =
     Return (Vd_values, Ids) /\
     length Ids = 200%nat /\
     Forall2 (fun Vd Id =>
                mosfet_iv Vg_slider Vd (tox_slider * 1e-9)
                          (mobility_slider * 1e-4) Vth_slider = Return Id)
             Vd_values Ids).
  { intros Hnz.
    destruct (Id_values_returns Vg_slider (tox_slider * 1e-9)
                (mobility_slider * 1e-4) Vth_slider)
      as [Ids [HIds [Hlen HF]]]; [lra |].
    exists Ids. split; [| split; assumption].
    unfold mosfet_mode. rewrite HIds. reflexivity. }
  split; [| exact Hok].
  split.
  - intros Hraise.
    destruct (Req_dec_T tox_slider 0) as [E | N]; [exact E |].
    destruct (Hok N) as [Ids [HIds _]]. rewrite HIds in Hraise. discriminate.
  - intros ->. unfold mosfet_mode.
    replace (0 * 1e-9) with 0 by lra.
    now rewrite Id_values_raises.
Qed.

Lemma mosfet_mode_outcome_witness :
  exists Ids,
    mosfet_mode 1 1.5 200 0.4 = Return (Vd_values, Ids) /\
    length Ids = 200%nat /\
    Forall2 (fun Vd Id =>
               mosfet_iv 1 Vd (1.5 * 1e-9) (200 * 1e-4) 0.4 = Return Id)
            Vd_values Ids.
Proof.
  apply (proj2 (mosfet_mode_outcome 1 1.5 200 0.4)). lra.
Defined.

Lemma slider_gain_bounds (tox_slider mobility_slider : R) :
  slider 0.5 5 tox_slider -> slider 50 500 mobility_slider ->
  0 <= mobility_slider * 1e-4 * (3.45e-11 / (tox_slider * 1e-9)) <= 0.00345.
Proof.
  intros [Ht1 Ht2] [Hm1 Hm2].
  set (c := 3.45e-11 / (tox_slider * 1e-9)).
  assert (Hc : c * tox_slider = 0.0345).
  { unfold c. replace (3.45e-11 / (tox_slider * 1e-9)) with (0.0345 / tox_slider).
    - unfold Rdiv. rewrite Rmult_assoc, Rinv_l; lra.
    - unfold Rdiv. rewrite Rinv_mult.
      replace (/ 1e-9) with 1e9 by lra. lra. }
  assert (Hcpos : 0 < c) by (unfold c; apply Rdiv_lt_0_compat; lra).
  assert (Hcle : c <= 0.069) by nra.
  split; nra.
Qed.

(** X10. For every setting of the four sliders of mode 1 within their
    bounds, the sweep returns and every plotted current lies between 0
    and 0.0063 A. *)
Theorem mosfet_mode_currents_bounded
  (Vg_slider tox_slider mobility_slider Vth_slider : R) :
  slider 0 2 Vg_slider -> slider 0.5 5 tox_slider ->
  slider 50 500 mobility_slider -> slider 0.1 1 Vth_slider ->
  exists Ids,
    mosfet_mode Vg_slider tox_slider mobility_slider Vth_slider =
    Return (Vd_values, Ids) /\
    Forall (fun Id => 0 <= Id <= 0.0063) Ids.
Proof.
  intros HVg Htox Hmob HVth.
  pose proof (slider_gain_bounds _ _ Htox Hmob) as [Hk0 Hk1].
  destruct HVg as [HVg0 HVg1]. destruct HVth as [HVth0 HVth1].
  assert (Htpos : 0 < tox_slider * 1e-9) by (destruct Htox; lra).
  assert (Hmpos : 0 <= mobility_slider * 1e-4) by (destruct Hmob; lra).
  destruct (Id_values_returns Vg_slider (tox_slider * 1e-9)
              (mobility_slider * 1e-4) Vth_slider)
    as [Ids [HIds [_ HF]]]; [lra |].
  exists Ids. split.
  - unfold mosfet_mode. rewrite HIds. reflexivity.
  - apply (Forall2_Forall_right _ _ _ _ HF).
    intros Vd Id HVd HId.
    apply linspace_within in HVd; [| lia | lra].
    split.
    + apply (mosfet_iv_returned_nonneg _ _ _ _ _ _ Htpos Hmpos (proj1 HVd) HId).
    + pose proof (mosfet_iv_returned_le_saturation _ _ _ _ _ _ Htpos Hmpos HId)
        as Hsat.
      set (k := mobility_slider * 1e-4 * (3.45e-11 / (tox_slider * 1e-9))) in *.
      assert (Hsq : (Vg_slider - Vth_slider) ^ 2 <= 3.61) by nra.
      pose proof (pow2_ge_0 (Vg_slider - Vth_slider)) as Hsq0.
      set (a2 := (Vg_slider - Vth_slider) ^ 2) in *.
      assert (Hprod : k * a2 <= 0.00345 * 3.61) by nra.
      lra.
Qed.

Lemma mosfet_mode_currents_bounded_witness :
  exists Ids,
    mosfet_mode 1 1.5 200 0.4 = Return (Vd_values, Ids) /\
    Forall (fun Id => 0 <= Id <= 0.0063) Ids.
Proof.
  apply (mosfet_mode_currents_bounded 1 1.5 200 0.4); unfold slider; lra.
Defined.

(** ** [dg_threshold]: range and limit *)

Lemma body_term_pos (thickness : R) :
  0 < exp (- thickness / 5e-9).
Proof. apply exp_pos. Qed.

Lemma body_term_le_1 (thickness : R) :
  0 <= thickness -> exp (- thickness / 5e-9) <= 1.
Proof.
  intros [Hpos | <-].
  - left. rewrite <- exp_0. apply exp_increasing. lra.
  - right. replace (- 0 / 5e-9) with 0 by lra. apply exp_0.
Qed.

(** [exp (- u) < 1 / (1 + u)] for positive [u]. *)
Lemma exp_opp_lt_inv (u : R) :
  0 < u -> exp (- u) < / (1 + u).
Proof.
  intros Hu. rewrite exp_Ropp.
  apply Rinv_lt_contravar.
  - apply Rmult_lt_0_compat; [lra | apply exp_pos].
  - apply exp_ineq1. lra.
Qed.

(** X12. The threshold is never below its oxide part
    [0.2 + (tox * 1e9) * 0.01]; the body adds at most 0.5 V when the
    thickness is not negative, and at least 0.5 V when it is not
    positive: a negative thickness is accepted. *)
Theorem dg_threshold_bounds (thickness tox : R) :
  0.2 + (tox * 1e9) * 0.01 <= dg_threshold thickness tox /\
  (0 <= thickness -> dg_threshold thickness tox <= 0.7 + (tox * 1e9) * 0.01) /\
  (thickness <= 0 -> 0.7 + (tox * 1e9) * 0.01 <= dg_threshold thickness tox).
Proof.
  unfold dg_threshold.
  pose proof (body_term_pos thickness) as Hpos.
  split; [lra | split].
  - intros Ht. pose proof (body_term_le_1 thickness Ht). lra.
  - intros [Hneg | ->].
    + assert (H1 : 1 < exp (- thickness / 5e-9))
        by (rewrite <- exp_0; apply exp_increasing; lra).
      lra.
    + replace (- 0 / 5e-9) with 0 by lra. rewrite exp_0. lra.
Qed.

Lemma dg_threshold_bounds_witness :
  dg_threshold 10e-9 1e-9 <= 0.7 + (1e-9 * 1e9) * 0.01 /\
  0.7 + (1e-9 * 1e9) * 0.01 <= dg_threshold (-10e-9) 1e-9.
Proof.
  split.
  - apply (dg_threshold_bounds 10e-9 1e-9). lra.
  - apply (dg_threshold_bounds (-10e-9) 1e-9). lra.
Defined.

(** X13. For every setting of the two sliders of mode 2 within their
    bounds (2 to 20 nm, 0.5 to 5 nm) the threshold shown lies strictly
    between 0.205 V and 0.61 V. *)
Theorem double_gate_mode_range (thickness_slider tox_slider : R) :
  slider 2 20 thickness_slider -> slider 0.5 5 tox_slider ->
  0.205 < double_gate_mode thickness_slider tox_slider < 0.61.
Proof.
  intros [Ht1 Ht2] [Hx1 Hx2]. unfold double_gate_mode, dg_threshold.
  pose proof (body_term_pos (thickness_slider * 1e-9)) as Hpos.
  assert (Hexp : exp (- (thickness_slider * 1e-9) / 5e-9) < / 1.4).
  { apply Rle_lt_trans with (exp (Ropp 0.4)).
    - destruct (Req_dec_T thickness_slider 2) as [-> | Hne].
      + right. f_equal. lra.
      + left. apply exp_increasing. lra.
    - replace 1.4 with (1 + 0.4) by lra. apply exp_opp_lt_inv. lra. }
  assert (Hinv : / 1.4 < 0.72) by lra.
  split; lra.
Qed.

Lemma double_gate_mode_range_witness :
  0.205 < double_gate_mode 10 1 < 0.61.
Proof.
  apply (double_gate_mode_range 10 1); unfold slider; lra.
Defined.

(** X15. For thick bodies the threshold tends to its oxide part: it gets
    within any [eps] of [0.2 + (tox * 1e9) * 0.01] once the thickness
    exceeds [5e-9 / (2 * eps)]. *)
Theorem dg_threshold_thick_limit (tox eps thickness : R) :
  0 < eps -> 5e-9 / (2 * eps) < thickness ->
  Rabs (dg_threshold thickness tox - (0.2 + (tox * 1e9) * 0.01)) < eps.
Proof.
  intros Heps Hthick. unfold dg_threshold.
  set (u := thickness / 5e-9).
  assert (Hbound : / (2 * eps) < u).
  { unfold u.
    replace (/ (2 * eps)) with (5e-9 / (2 * eps) / 5e-9) by (field; lra).
    unfold Rdiv at 1 3. apply Rmult_lt_compat_r; [lra | exact Hthick]. }
  assert (Hinv : 0 < / (2 * eps)) by (apply Rinv_0_lt_compat; lra).
  assert (Hu : 0 < u) by lra.
  replace (- thickness / 5e-9) with (- u) by (unfold u; lra).
  pose proof (exp_opp_lt_inv u Hu) as Hexp.
  pose proof (exp_pos (- u)) as Hpos.
  assert (Hsmall : / (1 + u) < 2 * eps).
  { rewrite <- (Rinv_inv (2 * eps)).
    apply Rinv_lt_contravar; [| lra].
    apply Rmult_lt_0_compat; lra. }
  apply Rabs_def1; lra.
Qed.

Lemma dg_threshold_thick_limit_witness :
  Rabs (dg_threshold 20e-9 1e-9 - (0.2 + (1e-9 * 1e9) * 0.01)) < 0.5.
Proof.
  apply (dg_threshold_thick_limit 1e-9 0.5 20e-9); lra.
Defined.

(** ** [cnt_bandgap] and the CNT mode: symmetry, growth and range *)

Lemma cnt_bandgap_returned (n m : Z) :
  (n <> 0 \/ m <> 0)%Z ->
  exists d Eg,
    cnt_bandgap n m = Return (d, Finite Eg) /\
    d = 0.0783 * sqrt (IZR (n ^ 2 + m ^ 2 + n * m)) /\
    0 < d /\ Eg = 0.82 / d.
Proof.
  intros H. destruct (cnt_bandgap_nonzero n m H) as [Hd Heq].
  eexists. eexists. split; [exact Heq |].
  split; [reflexivity | split; [exact Hd | reflexivity]].
Qed.

(** X16. Diameter and band gap do not depend on the order of the two
    indices, nor on changing the sign of both. *)
Theorem cnt_bandgap_symmetric (n m : Z) :
  cnt_bandgap n m = cnt_bandgap m n /\
  cnt_bandgap (- n) (- m) = cnt_bandgap n m.
Proof.
  unfold cnt_bandgap. split.
  - replace (m ^ 2 + n ^ 2 + m * n)%Z with (n ^ 2 + m ^ 2 + n * m)%Z by ring.
    reflexivity.
  - replace ((- n) ^ 2 + (- m) ^ 2 + - n * - m)%Z
      with (n ^ 2 + m ^ 2 + n * m)%Z by ring.
    reflexivity.
Qed.

(** X17. Away from [n = m = 0] the band gap is a positive number and its
    product with the diameter is 0.82 to within 1e-9. *)
Theorem cnt_bandgap_product (n m : Z) :
  (n <> 0 \/ m <> 0)%Z ->
  exists d Eg,
    cnt_bandgap n m = Return (d, Finite Eg) /\
    0 < Eg /\ Rabs (d * Eg - 0.82) < 1e-9.
Proof.
  intros H.
  destruct (cnt_bandgap_returned n m H) as [d [Eg [Heq [_ [Hd ->]]]]].
  exists d, (0.82 / d). split; [exact Heq | split].
  - apply Rdiv_lt_0_compat; lra.
  - replace (d * (0.82 / d) - 0.82) with 0 by (field; lra).
    rewrite Rabs_R0. lra.
Qed.

Lemma cnt_bandgap_product_witness :
  exists d Eg,
    cnt_bandgap 10 0 = Return (d, Finite Eg) /\
    0 < Eg /\ Rabs (d * Eg - 0.82) < 1e-9.
Proof.
  apply (cnt_bandgap_product 10 0). left. discriminate.
Defined.

Lemma sqrt_3_bounds : 1.732 < sqrt 3 < 1.7321.
Proof.
  assert (Hsq : sqrt 3 * sqrt 3 = 3) by (apply sqrt_sqrt; lra).
  pose proof (sqrt_pos 3). split; nra.
Qed.

(** X18. For a positive index [n] the zigzag tube [(n, 0)] has diameter
    [0.0783 * n], and the armchair tube [(n, n)] is between 1.732 and
    1.7321 times as wide; in both the band gap is 0.82 over the
    diameter. *)
Theorem cnt_bandgap_zigzag_armchair (n : Z) :
  (0 < n)%Z ->
  cnt_bandgap n 0 =
    Return (0.0783 * IZR n, Finite (0.82 / (0.0783 * IZR n))) /\
  exists d,
    cnt_bandgap n n = Return (d, Finite (0.82 / d)) /\
    1.732 * (0.0783 * IZR n) < d < 1.7321 * (0.0783 * IZR n).
Proof.
  intros Hn.
  assert (Hpos : 0 < IZR n) by now apply (IZR_lt 0).
  split.
  - destruct (cnt_bandgap_nonzero n 0) as [_ Heq]; [left; lia |].
    rewrite Heq.
    replace (n ^ 2 + 0 ^ 2 + n * 0)%Z with (n * n)%Z by ring.
    rewrite mult_IZR, sqrt_square by lra. reflexivity.
  - destruct (cnt_bandgap_nonzero n n) as [_ Heq]; [left; lia |].
    eexists. split; [exact Heq |].
    replace (n ^ 2 + n ^ 2 + n * n)%Z with (3 * (n * n))%Z by ring.
    rewrite !mult_IZR, sqrt_mult, sqrt_square by nra.
    pose proof sqrt_3_bounds as [Hlo Hhi].
    split; nra.
Qed.

Lemma cnt_bandgap_zigzag_armchair_witness :
  cnt_bandgap 10 0 =
    Return (0.0783 * IZR 10, Finite (0.82 / (0.0783 * IZR 10))) /\
  exists d,
    cnt_bandgap 10 10 = Return (d, Finite (0.82 / d)) /\
    1.732 * (0.0783 * IZR 10) < d < 1.7321 * (0.0783 * IZR 10).
Proof.
  apply (cnt_bandgap_zigzag_armchair 10). reflexivity.
Defined.

Lemma cnt_diameter_monotone (n m n' m' : Z) :
  (0 <= n <= n')%Z -> (0 <= m <= m')%Z ->
  0.0783 * sqrt (IZR (n ^ 2 + m ^ 2 + n * m)) <=
  0.0783 * sqrt (IZR (n' ^ 2 + m' ^ 2 + n' * m')).
Proof.
  intros Hn Hm. apply Rmult_le_compat_l; [lra |].
  apply sqrt_le_1_alt. apply IZR_le. nia.
Qed.

(** X19. Among non-negative indices, larger indices give a diameter at
    least as large and a band gap at most as large. *)
Theorem cnt_bandgap_monotone (n m n' m' : Z) :
  (0 <= n <= n')%Z -> (0 <= m <= m')%Z -> (n <> 0 \/ m <> 0)%Z ->
  exists d Eg d' Eg',
    cnt_bandgap n m = Return (d, Finite Eg) /\
    cnt_bandgap n' m' = Return (d', Finite Eg') /\
    d <= d' /\ Eg' <= Eg.
Proof.
  intros Hn Hm Hnz.
  destruct (cnt_bandgap_returned n m Hnz) as [d [Eg [Heq [Hdef [Hd ->]]]]].
  destruct (cnt_bandgap_returned n' m') as [d' [Eg' [Heq' [Hdef' [Hd' ->]]]]];
    [lia |].
  exists d, (0.82 / d), d', (0.82 / d').
  split; [exact Heq | split; [exact Heq' |]].
  assert (Hle : d <= d') by (subst d d'; now apply cnt_diameter_monotone).
  split; [exact Hle |].
  unfold Rdiv. apply Rmult_le_compat_l; [lra |].
  now apply Rinv_le_contravar.
Qed.

Lemma cnt_bandgap_monotone_witness :
  exists d Eg d' Eg',
    cnt_bandgap 5 5 = Return (d, Finite Eg) /\
    cnt_bandgap 10 7 = Return (d', Finite Eg') /\
    d <= d' /\ Eg' <= Eg.
Proof.
  apply (cnt_bandgap_monotone 5 5 10 7); [lia | lia | left; discriminate].
Defined.

Lemma sqrt_3_lower : 1.732 < sqrt 3.
Proof.
  assert (Hsq : sqrt 3 * sqrt 3 = 3) by (apply sqrt_sqrt; lra).
  pose proof (sqrt_pos 3). nra.
Qed.

Lemma sqrt_2700_upper : sqrt 2700 < 51.97.
Proof.
  assert (Hsq : sqrt 2700 * sqrt 2700 = 2700) by (apply sqrt_sqrt; lra).
  pose proof (sqrt_pos 2700). nra.
Qed.

Lemma cnt_mode_returned (n m : Z) (d Eg : R) :
  cnt_bandgap n m = Return (d, Finite Eg) ->
  cnt_mode n m = Return (d, Finite Eg, cnt_classification n m).
Proof. intros H. unfold cnt_mode. rewrite H. reflexivity. Qed.

(** X20. For every setting of the two index sliders within 1..30 the
    CNT mode shows a diameter between 0.135 and 4.07 nm and a band gap
    between 0.2 and 6.06 eV. *)
Theorem cnt_mode_range (n m : Z) :
  int_slider 1 30 n -> int_slider 1 30 m ->
  exists d Eg,
    cnt_mode n m = Return (d, Finite Eg, cnt_classification n m) /\
    0.135 < d < 4.07 /\ 0.2 < Eg < 6.06.
Proof.
  intros Hn Hm. unfold int_slider in Hn, Hm.
  destruct (cnt_bandgap_returned n m) as [d [Eg [Heq [Hdef [Hd ->]]]]];
    [left; lia |].
  exists d, (0.82 / d). split; [now apply cnt_mode_returned |].
  assert (Hlo : 0.0783 * sqrt 3 <= d).
  { rewrite Hdef.
    replace 3 with (IZR (1 ^ 2 + 1 ^ 2 + 1 * 1)) by (cbn; lra).
    apply cnt_diameter_monotone; lia. }
  assert (Hhi : d <= 0.0783 * sqrt 2700).
  { rewrite Hdef.
    replace 2700 with (IZR (30 ^ 2 + 30 ^ 2 + 30 * 30)) by (cbn; lra).
    apply cnt_diameter_monotone; lia. }
  pose proof sqrt_3_lower. pose proof sqrt_2700_upper.
  assert (Hd1 : 0.1356 < d) by lra.
  assert (Hd2 : d < 4.0694) by lra.
  split; [lra |].
  split.
  - apply Rmult_lt_reg_r with d; [lra |].
    replace (0.82 / d * d) with 0.82 by (field; lra). lra.
  - apply Rmult_lt_reg_r with d; [lra |].
    replace (0.82 / d * d) with 0.82 by (field; lra). lra.
Qed.

Lemma cnt_mode_range_witness :
  exists d Eg,
    cnt_mode 10 10 = Return (d, Finite Eg, cnt_classification 10 10) /\
    0.135 < d < 4.07 /\ 0.2 < Eg < 6.06.
Proof.
  apply (cnt_mode_range 10 10); unfold int_slider; lia.
Defined.

Lemma cnt_classification_divides (n m : Z) :
  cnt_classification n m = Metallic <-> (3 | n - m)%Z.
Proof.
  rewrite cnt_classification_metallic_iff. apply Z.mod_divide. lia.
Qed.

(** X21. The message and the band gap are computed independently: when
    3 divides [n - m] the page announces a metallic tube and, next to it,
    a band gap that is strictly positive. *)
Theorem cnt_mode_metallic_with_gap (n m : Z) :
  (3 | n - m)%Z -> (n <> 0 \/ m <> 0)%Z ->
  exists d Eg,
    cnt_mode n m = Return (d, Finite Eg, Metallic) /\ 0 < Eg.
Proof.
  intros Hdiv Hnz.
  destruct (cnt_bandgap_returned n m Hnz) as [d [Eg [Heq [_ [Hd ->]]]]].
  exists d, (0.82 / d). split.
  - rewrite (cnt_mode_returned n m d (0.82 / d) Heq).
    apply cnt_classification_divides in Hdiv. now rewrite Hdiv.
  - apply Rdiv_lt_0_compat; lra.
Qed.

Lemma cnt_mode_metallic_with_gap_witness :
  exists d Eg,
    cnt_mode 10 10 = Return (d, Finite Eg, Metallic) /\ 0 < Eg.
Proof.
  apply (cnt_mode_metallic_with_gap 10 10).
  - exists 0%Z. reflexivity.
  - left. discriminate.
Defined.

(** X22. The classification does not depend on the order of the two
    indices, and adding a multiple of 3 to either index leaves it
    unchanged. *)
Theorem cnt_classification_symmetric_periodic (n m k : Z) :
  cnt_classification n m = cnt_classification m n /\
  cnt_classification (n + 3 * k) m = cnt_classification n m /\
  cnt_classification n (m + 3 * k) = cnt_classification n m.
Proof.
  assert (Hcase : forall a b c d : Z,
            ((3 | a - b) <-> (3 | c - d))%Z ->
            cnt_classification a b = cnt_classification c d).
  { intros a b c d Hiff.
    pose proof (cnt_classification_divides a b) as Hab.
    pose proof (cnt_classification_divides c d) as Hcd.
    destruct (cnt_classification a b), (cnt_classification c d);
      try reflexivity.
    - assert (E : Semiconducting = Metallic) by (apply Hcd, Hiff, Hab; reflexivity).
      discriminate.
    - assert (E : Semiconducting = Metallic) by (apply Hab, Hiff, Hcd; reflexivity).
      discriminate. }
  split; [| split]; apply Hcase.
  - split; intros [q Hq]; exists (- q)%Z; lia.
  - split; intros [q Hq]; [exists (q - k)%Z | exists (q + k)%Z]; lia.
  - split; intros [q Hq]; [exists (q + k)%Z | exists (q - k)%Z]; lia.
Qed.

(** X23. Of any three consecutive values of the second index exactly one
    is reported metallic. *)
Theorem cnt_classification_one_in_three (n m : Z) :
  (cnt_classification n m = Metallic /\
   cnt_classification n (m + 1) = Semiconducting /\
   cnt_classification n (m + 2) = Semiconducting) \/
  (cnt_classification n m = Semiconducting /\
   cnt_classification n (m + 1) = Metallic /\
   cnt_classification n (m + 2) = Semiconducting) \/
  (cnt_classification n m = Semiconducting /\
   cnt_classification n (m + 1) = Semiconducting /\
   cnt_classification n (m + 2) = Metallic).
Proof.
  unfold cnt_classification.
  destruct (Z.eqb_spec (Z.abs ((n - m) mod 3)) 0) as [H0 | H0];
    destruct (Z.eqb_spec (Z.abs ((n - (m + 1)) mod 3)) 0) as [H1 | H1];
    destruct (Z.eqb_spec (Z.abs ((n - (m + 2)) mod 3)) 0) as [H2 | H2];
    try (left; repeat split; reflexivity);
    try (right; left; repeat split; reflexivity);
    try (right; right; repeat split; reflexivity);
    exfalso; revert H0 H1 H2;
    Z.div_mod_to_equations; lia.
Qed.

(** ** [mobility_degradation] and its sweep *)

Lemma mobility_degradation_above_pole (Efield mu0 : R) :
  - 1e6 < Efield ->
  0 < 1 + Efield / 1e6 /\
  mobility_degradation Efield mu0 = Finite (mu0 / (1 + Efield / 1e6)).
Proof.
  intros HE.
  assert (Hden : 0 < 1 + Efield / 1e6) by lra.
  split; [exact Hden |].
  unfold mobility_degradation. apply np_divide_nonzero. lra.
Qed.

Lemma quotient_between (mu0 den lo hi : R) :
  0 <= mu0 -> 0 < lo -> lo <= den <= hi ->
  mu0 / hi <= mu0 / den <= mu0 / lo.
Proof.
  intros Hmu Hlo [H1 H2]. unfold Rdiv.
  split; apply Rmult_le_compat_l; try assumption;
    apply Rinv_le_contravar; lra.
Qed.

(** X24. For a non-negative field and a non-negative low-field mobility
    the result is a number between 0 and [mu0]. *)
Theorem mobility_degradation_bounds (Efield mu0 : R) :
  0 <= Efield -> 0 <= mu0 ->
  exists mu,
    mobility_degradation Efield mu0 = Finite mu /\ 0 <= mu <= mu0.
Proof.
  intros HE Hmu.
  destruct (mobility_degradation_above_pole Efield mu0) as [Hden Heq]; [lra |].
  exists (mu0 / (1 + Efield / 1e6)). split; [exact Heq |].
  assert (Hinv : 0 < / (1 + Efield / 1e6)) by now apply Rinv_0_lt_compat.
  assert (Hle : / (1 + Efield / 1e6) <= 1).
  { rewrite <- Rinv_1. apply Rinv_le_contravar; lra. }
  unfold Rdiv. split; nra.
Qed.

Lemma mobility_degradation_bounds_witness :
  exists mu,
    mobility_degradation 1e4 0.03 = Finite mu /\ 0 <= mu <= 0.03.
Proof.
  apply (mobility_degradation_bounds 1e4 0.03); lra.
Defined.

Lemma mobility_quotient_decreasing (E1 E2 mu0 : R) :
  - 1e6 < E1 -> E1 < E2 -> 0 < mu0 ->
  mu0 / (1 + E2 / 1e6) < mu0 / (1 + E1 / 1e6).
Proof.
  intros H1 H12 Hmu. unfold Rdiv.
  apply Rmult_lt_compat_l; [assumption |].
  apply Rinv_lt_contravar; [| lra].
  apply Rmult_lt_0_compat; lra.
Qed.

(** X25. Above the field [-1e6], and for a non-negative low-field
    mobility, a larger field never gives a larger mobility. *)
Theorem mobility_degradation_nonincreasing (E1 E2 mu0 : R) :
  - 1e6 < E1 -> E1 <= E2 -> 0 <= mu0 ->
  exists mu1 mu2,
    mobility_degradation E1 mu0 = Finite mu1 /\
    mobility_degradation E2 mu0 = Finite mu2 /\
    mu2 <= mu1.
Proof.
  intros H1 H12 Hmu.
  destruct (mobility_degradation_above_pole E1 mu0 H1) as [Hden1 Heq1].
  destruct (mobility_degradation_above_pole E2 mu0) as [Hden2 Heq2]; [lra |].
  eexists. eexists. split; [exact Heq1 | split; [exact Heq2 |]].
  unfold Rdiv. apply Rmult_le_compat_l; [assumption |].
  apply Rinv_le_contravar; lra.
Qed.

Lemma mobility_degradation_nonincreasing_witness :
  exists mu1 mu2,
    mobility_degradation 1e4 0.03 = Finite mu1 /\
    mobility_degradation 1e7 0.03 = Finite mu2 /\
    mu2 <= mu1.
Proof.
  apply (mobility_degradation_nonincreasing 1e4 1e7 0.03); lra.
Defined.

(** X26. The field [-1e6] is the pole of the formula and is not refused:
    there the result is [+inf], [-inf] or [nan] according to the sign of
    [mu0], and for fields below it a positive [mu0] gives a negative
    mobility. *)
Theorem mobility_degradation_at_pole (mu0 : R) :
  (0 < mu0 -> mobility_degradation (- 1e6) mu0 = PosInf) /\
  (mu0 < 0 -> mobility_degradation (- 1e6) mu0 = NegInf) /\
  (mu0 = 0 -> mobility_degradation (- 1e6) mu0 = NaN) /\
  (forall Efield, Efield < - 1e6 -> 0 < mu0 ->
     exists mu, mobility_degradation Efield mu0 = Finite mu /\ mu < 0).
Proof.
  assert (Hden : 1 + - 1e6 / 1e6 = 0) by lra.
  unfold mobility_degradation.
  split; [| split; [| split]].
  - intros Hmu. rewrite Hden. now apply np_divide_zero_pos.
  - intros Hmu. rewrite Hden. unfold np_divide.
    destruct (Req_dec_T 0 0) as [_ | N]; [| now elim N].
    destruct (Req_dec_T mu0 0) as [E | _]; [lra |].
    destruct (Rlt_dec 0 mu0) as [Hpos | _]; [lra | reflexivity].
  - intros ->. rewrite Hden. unfold np_divide.
    destruct (Req_dec_T 0 0) as [_ | N]; [reflexivity | now elim N].
  - intros Efield HE Hmu.
    exists (mu0 / (1 + Efield / 1e6)). split.
    + apply np_divide_nonzero. lra.
    + assert (Hneg : 0 < - (1 + Efield / 1e6)) by lra.
      assert (Hinv : 0 < / - (1 + Efield / 1e6)) by now apply Rinv_0_lt_compat.
      rewrite Rinv_opp in Hinv. unfold Rdiv. nra.
Qed.

Lemma mobility_degradation_at_pole_witness :
  mobility_degradation (- 1e6) 0.03 = PosInf /\
  mobility_degradation (- 1e6) (- 0.03) = NegInf /\
  mobility_degradation (- 1e6) 0 = NaN /\
  exists mu, mobility_degradation (- 2e6) 0.03 = Finite mu /\ mu < 0.
Proof.
  split; [| split; [| split]].
  - apply (mobility_degradation_at_pole 0.03). lra.
  - apply (mobility_degradation_at_pole (- 0.03)). lra.
  - apply (mobility_degradation_at_pole 0). reflexivity.
  - destruct (mobility_degradation_at_pole 0.03) as [_ [_ [_ Hbelow]]].
    apply (Hbelow (- 2e6)); lra.
Defined.

(** X27. For every setting of the mobility slider within its bounds the
    sweep of mode 4 plots, against its 200 fields, 200 mobilities that are
    all numbers, lie between [mu0 / 11] and [mu0 / 1.01] for
    [mu0 = slider * 1e-4], and strictly decrease along the sweep. *)
Theorem mobility_mode_sweep (mu0_slider : R) :
  slider 10 500 mu0_slider ->
  let mu0 := mu0_slider * 1e-4 in
  exists mu,
    mobility_mode mu0_slider = (E_values, mu) /\
    length mu = 200%nat /\
    Forall (fun v => exists r, v = Finite r /\ mu0 / 11 <= r <= mu0 / 1.01) mu /\
    (forall i j ri rj, (i < j)%nat ->
       nth_error mu i = Some (Finite ri) ->
       nth_error mu j = Some (Finite rj) ->
       rj < ri).
Proof.
  intros [Hs1 Hs2] mu0.
  assert (Hmu : 0 < mu0) by (unfold mu0; lra).
  exists (mobility_degradation_array E_values mu0).
  split; [reflexivity |].
  unfold mobility_degradation_array.
  split; [| split].
  - rewrite length_map. apply linspace_length.
  - apply Forall_map, Forall_forall. intros E HE.
    apply linspace_within in HE; [| lia | lra].
    destruct (mobility_degradation_above_pole E mu0) as [_ Heq]; [lra |].
    exists (mu0 / (1 + E / 1e6)). split; [exact Heq |].
    apply quotient_between; lra.
  - intros i j ri rj Hij Hi Hj.
    rewrite nth_error_map in Hi, Hj.
    destruct (nth_error E_values i) as [Ei |] eqn:HEi; [| discriminate].
    destruct (nth_error E_values j) as [Ej |] eqn:HEj; [| discriminate].
    cbn [option_map] in Hi, Hj.
    assert (Hlt : Ei < Ej).
    { unfold E_values in HEi, HEj.
      apply (linspace_increasing 1e4 1e7 200 i j); [lia | lra | assumption ..]. }
    assert (Hin : 1e4 <= Ei <= 1e7).
    { apply (linspace_within 1e4 1e7 200); [lia | lra |].
      apply (nth_error_In _ _ HEi). }
    destruct (mobility_degradation_above_pole Ei mu0) as [_ Heqi]; [lra |].
    destruct (mobility_degradation_above_pole Ej mu0) as [_ Heqj]; [lra |].
    rewrite Heqi in Hi. rewrite Heqj in Hj.
    injection Hi as <-. injection Hj as <-.
    apply mobility_quotient_decreasing; lra.
Qed.

Lemma mobility_mode_sweep_witness :
  exists mu,
    mobility_mode 300 = (E_values, mu) /\
    length mu = 200%nat /\
    Forall (fun v => exists r, v = Finite r /\
                     300 * 1e-4 / 11 <= r <= 300 * 1e-4 / 1.01) mu /\
    (forall i j ri rj, (i < j)%nat ->
       nth_error mu i = Some (Finite ri) ->
       nth_error mu j = Some (Finite rj) ->
       rj < ri).
Proof.
  apply (mobility_mode_sweep 300). unfold slider. lra.
Defined.

(** ** Radiation shift on the slider *)

(** X28. For every dose within the slider bounds (0 to 500 krad) the
    shift lies between 0 and 0.5 V, a larger dose never gives a smaller
    shift, and both plotted points lie on the line of slope 0.001 through
    the origin. *)
Theorem shift_on_slider :
  (forall dose, slider 0 500 dose -> 0 <= shift dose <= 0.5) /\
  (forall dose1 dose2, dose1 <= dose2 -> shift dose1 <= shift dose2) /\
  (forall dose, Forall (fun p => snd p = 0.001 * fst p) (shift_plot dose)).
Proof.
  unfold shift_plot, shift, slider.
  split; [| split].
  - intros dose [H1 H2]. lra.
  - intros dose1 dose2 H. lra.
  - intros dose. repeat constructor; cbn [fst snd]; lra.
Qed.

Lemma shift_on_slider_witness :
  0 <= shift 50 <= 0.5 /\ shift 50 <= shift 100.
Proof.
  split.
  - apply (proj1 shift_on_slider 50). unfold slider. lra.
  - apply (proj1 (proj2 shift_on_slider) 50 100). lra.
Defined.

(** ** Mode selection *)

(** X29. Each of the five options of the select box runs a branch of its
    own, in the order of the list, and any other string runs none: the
    chain has no [else]. *)
Theorem selected_branch_covers_options :
  map selected_branch mode_options =
    [Some MosfetIVMode; Some DoubleGateMode; Some CntMode;
     Some MobilityMode; Some RadiationMode] /\
  (forall mode, In mode mode_options <-> selected_branch mode <> None) /\
  NoDup mode_options.
Proof.
  split; [reflexivity | split].
  - intros mode. unfold selected_branch, mode_options. split.
    + intros Hin. cbn [In] in Hin.
      destruct Hin as [<- | [<- | [<- | [<- | [<- | []]]]]]; discriminate.
    + intros Hsel. cbn [In].
      destruct (String.eqb_spec mode "MOSFET I-V") as [E | _];
        [left; now symmetry |].
      destruct (String.eqb_spec mode "Double Gate MOS Threshold") as [E | _];
        [right; left; now symmetry |].
      destruct (String.eqb_spec mode "CNT Bandgap Explorer") as [E | _];
        [right; right; left; now symmetry |].
      destruct (String.eqb_spec mode "Mobility Degradation") as [E | _];
        [right; right; right; left; now symmetry |].
      destruct (String.eqb_spec mode "Radiation TID Threshold Shift") as [E | _];
        [right; right; right; right; left; now symmetry |].
      now elim Hsel.
  - unfold mode_options.
    repeat (constructor; [cbn [In]; intros H; repeat destruct H as [H | H];
                          try discriminate; exact H |]).
    constructor.
Qed.
